(* Verification of the storefront application shell (App.tsx, bundled in
   src/vite.config.ts) and of its theme engine.

   Numbers of the JavaScript code are modelled exactly: colour channels as Z,
   blend weights as Q, and [Math.round x] as [floor (x + 1/2)].  Strings are
   Stdlib strings of ASCII characters. *)

From Stdlib Require Import String Ascii ZArith QArith Qround Lqa List Bool Lia.
Import ListNotations.
Open Scope string_scope.

(* ------------------------------------------------------------------------- *)
(** * JavaScript values reaching the theme engine *)

(** The colour comes from the backend's site configuration, so at run time it
    may be any JavaScript value, whatever its TypeScript annotation says. *)
Inductive JSValue :=
| JSString (s : string)
| JSNumber (z : Z)
| JSBool (b : bool)
| JSNull
| JSUndefined.

(** [!v] in JavaScript. *)
Definition falsy (v : JSValue) : bool :=
  match v with
  | JSString s => String.eqb s ""
  | JSNumber z => Z.eqb z 0
  | JSBool b => negb b
  | JSNull | JSUndefined => true
  end.

(** [typeof v === 'string'] *)
Definition is_string (v : JSValue) : bool :=
  match v with JSString _ => true | _ => false end.

(* ------------------------------------------------------------------------- *)
(** * Theme Engine *)

Module Theme.

Record RGB := { r : Z; g : Z; b : Z }.

(** The character class [[a-f\d]] under the [i] flag: 0-9, a-f, A-F. *)
Definition is_hex_digit (c : ascii) : bool :=
  let n := nat_of_ascii c in
  (Nat.leb 48 n && Nat.leb n 57) || (Nat.leb 97 n && Nat.leb n 102)
  || (Nat.leb 65 n && Nat.leb n 70).

(** Value of one hexadecimal digit, as [parseInt] reads it. *)
Definition hex_digit_value (c : ascii) : option Z :=
  let n := Z.of_nat (nat_of_ascii c) in
  (if (48 <=? n) && (n <=? 57) then Some (n - 48)
   else if (97 <=? n) && (n <=? 102) then Some (n - 87)
   else if (65 <=? n) && (n <=? 70) then Some (n - 55)
   else None)%Z.

(** [parseInt(s, 16)]: the value of the longest prefix of hexadecimal digits;
    [None] stands for [NaN] (no leading digit). *)
Fixpoint parseInt16_acc (acc : option Z) (s : string) : option Z :=
  match s with
  | EmptyString => acc
  | String c rest =>
      match hex_digit_value c with
      | Some d =>
          parseInt16_acc (Some (16 * match acc with Some a => a | None => 0 end + d)%Z) rest
      | None => acc
      end
  end.

Definition parseInt16 (s : string) : option Z := parseInt16_acc None s.

(** [/^#?([a-f\d]{2})([a-f\d]{2})([a-f\d]{2})$/i.exec(hex)]: the three
    capture groups, or [None] when there is no match.  The optional [#] can
    only be taken when the string starts with it, since [#] is not in the
    digit class. *)
Definition hex_regex_exec (s : string) : option (string * string * string) :=
  let body := match s with
              | String c rest => if Ascii.eqb c "#"%char then rest else s
              | EmptyString => s
              end in
  match body with
  | String c1 (String c2 (String c3 (String c4 (String c5 (String c6 EmptyString))))) =>
      if is_hex_digit c1 && is_hex_digit c2 && is_hex_digit c3
         && is_hex_digit c4 && is_hex_digit c5 && is_hex_digit c6
      then Some (String c1 (String c2 EmptyString),
                 String c3 (String c4 EmptyString),
                 String c5 (String c6 EmptyString))
      else None
  | _ => None
  end.

Definition default_rgb : RGB := {| r := 37; g := 99; b := 235 |}.

(** [parseInt(group, 16)] on a capture group.  A group holds two hexadecimal
    digits, so [parseInt] never yields [NaN] there; the [0] is unreachable. *)
Definition group_value (s : string) : Z :=
  match parseInt16 s with Some z => z | None => 0%Z end.

Definition hexToRgb (hex : JSValue) : RGB :=
  if falsy hex || negb (is_string hex) then default_rgb
  else
    match hex with
    | JSString s =>
        match hex_regex_exec s with
        | Some (g1, g2, g3) =>
            {| r := group_value g1; g := group_value g2; b := group_value g3 |}
        | None => default_rgb
        end
    | _ => default_rgb
    end.

(** [Math.round]: rounds to the nearest integer, halves upwards. *)
Definition Math_round (x : Q) : Z := Qfloor (x + (1 # 2)).

Definition mix (c1 c2 : RGB) (weight : Q) : RGB :=
  {| r := Math_round (inject_Z (r c1) * (1 - weight) + inject_Z (r c2) * weight);
     g := Math_round (inject_Z (g c1) * (1 - weight) + inject_Z (g c2) * weight);
     b := Math_round (inject_Z (b c1) * (1 - weight) + inject_Z (b c2) * weight) |}.

Definition white : RGB := {| r := 255; g := 255; b := 255 |}.
Definition black : RGB := {| r := 0; g := 0; b := 0 |}.

(** The palette object; [Object.entries] lists its integer keys ascending,
    which is the order written here. *)
Definition palette (base : RGB) : list (Z * RGB) :=
  [ (50, mix base white (95 # 100)); (100, mix base white (9 # 10));
    (200, mix base white (75 # 100)); (300, mix base white (6 # 10));
    (400, mix base white (3 # 10)); (500, mix base white (1 # 10));
    (600, base); (700, mix base black (1 # 10)); (800, mix base black (25 # 100));
    (900, mix base black (4 # 10)); (950, mix base black (6 # 10)) ]%Z.

(** Decimal rendering of a number in a template literal. *)
Fixpoint digits_of_nat (fuel n : nat) (acc : string) : string :=
  match fuel with
  | O => acc
  | S fuel' =>
      let acc' := String (ascii_of_nat (48 + Nat.modulo n 10)) acc in
      if Nat.ltb n 10 then acc' else digits_of_nat fuel' (Nat.div n 10) acc'
  end.

Definition show_Z (z : Z) : string :=
  if (z <? 0)%Z then String "-" (digits_of_nat (S (Z.to_nat (- z))) (Z.to_nat (- z)) "")
  else digits_of_nat (S (Z.to_nat z)) (Z.to_nat z) "".

(** [`${value.r} ${value.g} ${value.b}`] *)
Definition rgb_triple (v : RGB) : string :=
  show_Z (r v) ++ " " ++ show_Z (g v) ++ " " ++ show_Z (b v).

(** [applyTheme]: the [root.style.setProperty] calls it makes, in order. *)
Definition applyTheme (hexColor : JSValue) : list (string * string) :=
  let base := hexToRgb hexColor in
  map (fun '(key, value) => ("--brand-" ++ show_Z key, rgb_triple value))
      (palette base).

(** The shade stored under a key of the palette. *)
Fixpoint shade (key : Z) (p : list (Z * RGB)) : option RGB :=
  match p with
  | [] => None
  | (k, v) :: rest => if Z.eqb k key then Some v else shade key rest
  end.

(** [String.prototype.toUpperCase] and [toLowerCase] on ASCII strings. *)
Definition toUpperAscii (c : ascii) : ascii :=
  let n := nat_of_ascii c in
  if Nat.leb 97 n && Nat.leb n 122 then ascii_of_nat (n - 32) else c.

Definition toLowerAscii (c : ascii) : ascii :=
  let n := nat_of_ascii c in
  if Nat.leb 65 n && Nat.leb n 90 then ascii_of_nat (n + 32) else c.

Fixpoint map_string (f : ascii -> ascii) (s : string) : string :=
  match s with
  | EmptyString => EmptyString
  | String c rest => String (f c) (map_string f rest)
  end.

Definition toUpperCase (s : string) : string := map_string toUpperAscii s.
Definition toLowerCase (s : string) : string := map_string toLowerAscii s.

Fixpoint all_chars (f : ascii -> bool) (s : string) : bool :=
  match s with
  | EmptyString => true
  | String c rest => f c && all_chars f rest
  end.

(** A string of exactly six hexadecimal digits (no [#]). *)
Definition is_hex6 (s : string) : bool :=
  Nat.eqb (String.length s) 6 && all_chars is_hex_digit s.

End Theme.

(* ------------------------------------------------------------------------- *)
(** * Data model (types.ts) *)

Module Product.
Record t := { id : string; name : string; category : string; price : Q;
              description : string; image : string; featured : bool }.
End Product.

Module BlogPost.
Record t := { id : string; title : string; excerpt : string; content : string;
              author : string; date : string; image : string }.
End BlogPost.

Module PageContent.
Record t := { id : string; slug : string; title : string; content : string }.
End PageContent.

Module SiteConfig.
Record t := { shopName : string; logoUrl : option string; themeColor : string;
              whatsappNumber : string; address : string; email : string;
              welcomeMessage : string; footerDescription : string;
              heroImage : option string; aboutUsTitle : string;
              aboutUsContent : string; aboutUsImage : string }.
End SiteConfig.

Inductive PageView :=
| HOME | SHOP | PRODUCT_DETAIL | BLOG | BLOG_DETAIL | DYNAMIC_PAGE
| ADMIN_LOGIN | ADMIN_DASHBOARD.

Definition PageView_eqb (v w : PageView) : bool :=
  match v, w with
  | HOME, HOME | SHOP, SHOP | PRODUCT_DETAIL, PRODUCT_DETAIL | BLOG, BLOG
  | BLOG_DETAIL, BLOG_DETAIL | DYNAMIC_PAGE, DYNAMIC_PAGE
  | ADMIN_LOGIN, ADMIN_LOGIN | ADMIN_DASHBOARD, ADMIN_DASHBOARD => true
  | _, _ => false
  end.

(* ------------------------------------------------------------------------- *)
(** * The App component's state *)

(** The [useState] hooks of [App], plus the authentication flag that
    [authService] keeps in browser storage. *)
Record AppState := {
  loading : bool;
  view : PageView;
  products : list Product.t;
  blogs : list BlogPost.t;
  pages : list PageContent.t;
  config : option SiteConfig.t;
  selectedProduct : option Product.t;
  selectedBlog : option BlogPost.t;
  selectedPage : option PageContent.t;
  isDarkMode : bool;
  loginPassword : string;
  loginError : string;
  showPassword : bool;
  authenticated : bool
}.

Definition initialState (authFlag : bool) : AppState :=
  {| loading := true; view := HOME; products := []; blogs := []; pages := [];
     config := None; selectedProduct := None; selectedBlog := None;
     selectedPage := None; isDarkMode := false; loginPassword := "";
     loginError := ""; showPassword := false; authenticated := authFlag |}.

(** The state setters. *)
Definition with_loading (x : bool) (s : AppState) : AppState :=
  {| loading := x; view := view s; products := products s; blogs := blogs s;
     pages := pages s; config := config s; selectedProduct := selectedProduct s;
     selectedBlog := selectedBlog s; selectedPage := selectedPage s;
     isDarkMode := isDarkMode s; loginPassword := loginPassword s;
     loginError := loginError s; showPassword := showPassword s;
     authenticated := authenticated s |}.

Definition with_view (x : PageView) (s : AppState) : AppState :=
  {| loading := loading s; view := x; products := products s; blogs := blogs s;
     pages := pages s; config := config s; selectedProduct := selectedProduct s;
     selectedBlog := selectedBlog s; selectedPage := selectedPage s;
     isDarkMode := isDarkMode s; loginPassword := loginPassword s;
     loginError := loginError s; showPassword := showPassword s;
     authenticated := authenticated s |}.

Definition with_products (x : list Product.t) (s : AppState) : AppState :=
  {| loading := loading s; view := view s; products := x; blogs := blogs s;
     pages := pages s; config := config s; selectedProduct := selectedProduct s;
     selectedBlog := selectedBlog s; selectedPage := selectedPage s;
     isDarkMode := isDarkMode s; loginPassword := loginPassword s;
     loginError := loginError s; showPassword := showPassword s;
     authenticated := authenticated s |}.

Definition with_blogs (x : list BlogPost.t) (s : AppState) : AppState :=
  {| loading := loading s; view := view s; products := products s; blogs := x;
     pages := pages s; config := config s; selectedProduct := selectedProduct s;
     selectedBlog := selectedBlog s; selectedPage := selectedPage s;
     isDarkMode := isDarkMode s; loginPassword := loginPassword s;
     loginError := loginError s; showPassword := showPassword s;
     authenticated := authenticated s |}.

Definition with_pages (x : list PageContent.t) (s : AppState) : AppState :=
  {| loading := loading s; view := view s; products := products s; blogs := blogs s;
     pages := x; config := config s; selectedProduct := selectedProduct s;
     selectedBlog := selectedBlog s; selectedPage := selectedPage s;
     isDarkMode := isDarkMode s; loginPassword := loginPassword s;
     loginError := loginError s; showPassword := showPassword s;
     authenticated := authenticated s |}.

Definition with_config (x : option SiteConfig.t) (s : AppState) : AppState :=
  {| loading := loading s; view := view s; products := products s; blogs := blogs s;
     pages := pages s; config := x; selectedProduct := selectedProduct s;
     selectedBlog := selectedBlog s; selectedPage := selectedPage s;
     isDarkMode := isDarkMode s; loginPassword := loginPassword s;
     loginError := loginError s; showPassword := showPassword s;
     authenticated := authenticated s |}.

Definition with_loginPassword (x : string) (s : AppState) : AppState :=
  {| loading := loading s; view := view s; products := products s; blogs := blogs s;
     pages := pages s; config := config s; selectedProduct := selectedProduct s;
     selectedBlog := selectedBlog s; selectedPage := selectedPage s;
     isDarkMode := isDarkMode s; loginPassword := x;
     loginError := loginError s; showPassword := showPassword s;
     authenticated := authenticated s |}.

Definition with_loginError (x : string) (s : AppState) : AppState :=
  {| loading := loading s; view := view s; products := products s; blogs := blogs s;
     pages := pages s; config := config s; selectedProduct := selectedProduct s;
     selectedBlog := selectedBlog s; selectedPage := selectedPage s;
     isDarkMode := isDarkMode s; loginPassword := loginPassword s;
     loginError := x; showPassword := showPassword s;
     authenticated := authenticated s |}.

Definition with_authenticated (x : bool) (s : AppState) : AppState :=
  {| loading := loading s; view := view s; products := products s; blogs := blogs s;
     pages := pages s; config := config s; selectedProduct := selectedProduct s;
     selectedBlog := selectedBlog s; selectedPage := selectedPage s;
     isDarkMode := isDarkMode s; loginPassword := loginPassword s;
     loginError := loginError s; showPassword := showPassword s;
     authenticated := x |}.

(* ------------------------------------------------------------------------- *)
(** * Auth Gate (services/authService) *)

Record LoginResult := { success : bool; error : option string }.

(** Modelled from the spec: [login], whose source (services/authService) is
    not part of the sources.  It compares the password with the configured
    secret; on success it sets the persisted authentication flag and returns
    [{success: true}], on failure it returns
    [{success: false, error: "Login gagal"}] and leaves the flag as it was. *)
Definition login (secret password : string) (authFlag : bool) : LoginResult * bool :=
  if String.eqb password secret
  then ({| success := true; error := None |}, true)
  else ({| success := false; error := Some "Login gagal" |}, authFlag).

(** Modelled from the spec: [checkIsAuthenticated], a synchronous query of
    the persisted authentication flag. *)
Definition checkIsAuthenticated (s : AppState) : bool := authenticated s.

(** [result.error || 'Login gagal'] *)
Definition error_or_default (e : option string) : string :=
  match e with
  | Some msg => if String.eqb msg "" then "Login gagal" else msg
  | None => "Login gagal"
  end.

(** [handleLoginSubmit]: the state after the form submission. *)
Definition handleLoginSubmit (secret : string) (s : AppState) : AppState :=
  let '(result, authFlag) := login secret (loginPassword s) (authenticated s) in
  let s := with_authenticated authFlag s in
  if success result
  then with_view ADMIN_DASHBOARD (with_loginError "" (with_loginPassword "" s))
  else with_loginError (error_or_default (error result)) s.

(* ------------------------------------------------------------------------- *)
(** * Rendering *)

(** JavaScript truthiness of a nullable object. *)
Definition isSome {A} (o : option A) : bool :=
  match o with Some _ => true | None => false end.

Set Warnings "-register-all".

(** The elements [App] renders, one constructor per component or element it
    produces; page renderers receive the site configuration as a
    [SiteConfig.t], never as a nullable value. *)
Inductive Node :=
| NLoader                                   (* the "Memuat Toko..." spinner *)
| NNull                                     (* null *)
| NEmptyDiv                                 (* <div /> *)
| NFragment (children : list Node)
| NSeoHead (title description : string) (c : SiteConfig.t)
| NAdminLogin (password : string) (show : bool) (errorBox : option string)
| NAdminDashboard (ps : list Product.t) (bs : list BlogPost.t)
                  (pgs : list PageContent.t) (c : SiteConfig.t)
| NShop (ps : list Product.t)
| NProductDetail (p : Product.t) (c : SiteConfig.t)
| NBlogList (bs : list BlogPost.t)
| NBlogDetail (post : BlogPost.t)
| NDynamicPage (page : PageContent.t)
| NHome (ps : list Product.t) (bs : list BlogPost.t) (c : SiteConfig.t)
| NLayout (v : PageView) (c : SiteConfig.t) (pgs : list PageContent.t)
          (dark : bool) (main : Node).

(** Whether a rendered tree shows the admin dashboard. *)
Fixpoint shows_dashboard (n : Node) : bool :=
  match n with
  | NAdminDashboard _ _ _ _ => true
  | NFragment children => existsb shows_dashboard children
  | NLayout _ _ _ _ main => shows_dashboard main
  | _ => false
  end.

Inductive JSError := TypeError (msg : string) | NetworkError.

Inductive Result (A : Type) := Ok (a : A) | Throw (e : JSError).
Arguments Ok {A} a.
Arguments Throw {A} e.

(** A render of [App]: it reads the state of this render, may schedule state
    updates (the returned state is the one the next render sees) and may
    throw. *)
Definition Render (A : Type) := AppState -> Result A * AppState.

Definition ret {A} (a : A) : Render A := fun s => (Ok a, s).

Definition bind {A B} (m : Render A) (k : A -> Render B) : Render B :=
  fun s => match m s with
           | (Ok a, s') => k a s'
           | (Throw e, s') => (Throw e, s')
           end.

Notation "x <- m ;; k" := (bind m (fun x => k))
  (at level 61, m at next level, right associativity).

Definition setView (v : PageView) : Render unit :=
  fun s => (Ok tt, with_view v s).

(** Reading a property of a nullable value: throws on [null]. *)
Definition deref {A} (o : option A) : Render A :=
  match o with
  | Some a => ret a
  | None => fun s => (Throw (TypeError "Cannot read properties of null"), s)
  end.

(** [renderContent], the switch over [view].  [c] is [config], non-null once
    the loading guard of [App] has passed. *)
Definition renderContent (c : SiteConfig.t) : Render Node :=
  fun s =>
  match view s with
  | ADMIN_LOGIN =>
      ret (NFragment [NSeoHead "Admin Login" "Restricted Area" c;
                      NAdminLogin (loginPassword s) (showPassword s)
                        (if String.eqb (loginError s) "" then None
                         else Some (loginError s))]) s
  | ADMIN_DASHBOARD =>
      (if negb (checkIsAuthenticated s)
       then (_ <- setView ADMIN_LOGIN ;; ret NNull)
       else ret (NFragment [NSeoHead "Dashboard" "Admin Control Panel" c;
                            NAdminDashboard (products s) (blogs s) (pages s) c])) s
  | PRODUCT_DETAIL =>
      (if isSome (selectedProduct s)
       then (p <- deref (selectedProduct s) ;;
             ret (NFragment [NSeoHead (Product.name p) (Product.description p) c;
                             NProductDetail p c]))
       else ret (NShop (products s))) s
  | SHOP =>
      ret (NFragment [NSeoHead "Katalog Produk" "Jual Audio Mobil Berkualitas" c;
                      NShop (products s)]) s
  | BLOG_DETAIL =>
      (if isSome (selectedBlog s)
       then (bp <- deref (selectedBlog s) ;;
             ret (NFragment [NSeoHead (BlogPost.title bp) (BlogPost.excerpt bp) c;
                             NBlogDetail bp]))
       else ret NEmptyDiv) s
  | BLOG =>
      ret (NFragment [NSeoHead "Artikel" "Tips Audio Mobil" c; NBlogList (blogs s)]) s
  | DYNAMIC_PAGE =>
      (if isSome (selectedPage s)
       then (pg <- deref (selectedPage s) ;;
             ret (NFragment [NSeoHead (PageContent.title pg) (PageContent.title pg) c;
                             NDynamicPage pg]))
       else ret NNull) s
  | _ =>
      ret (NFragment [NSeoHead "Home" (SiteConfig.shopName c) c;
                      NHome (products s) (blogs s) c]) s
  end.

(** The body of [App]: the loading guard, then the admin views bare and the
    other views inside the site layout. *)
Definition renderApp : Render Node :=
  fun s =>
  if loading s || negb (isSome (config s)) then ret NLoader s
  else
    match config s with
    | Some c =>
        (if PageView_eqb (view s) ADMIN_DASHBOARD || PageView_eqb (view s) ADMIN_LOGIN
         then renderContent c
         else (content <- renderContent c ;;
               ret (NLayout (view s) c (pages s) (isDarkMode s) content))) s
    | None => ret NLoader s (* excluded by the guard above *)
    end.

(* ------------------------------------------------------------------------- *)
(** * Data Store Adapter (services/store) and the admin handlers *)

(** Modelled from the spec: the remote data service behind
    services/store, whose source is not part of the sources.  It holds the
    four collections; every call fails with a network error while the
    service is unreachable. *)
Record Backend := {
  db_online : bool;
  db_config : option SiteConfig.t;
  db_products : list Product.t;
  db_blogs : list BlogPost.t;
  db_pages : list PageContent.t
}.

Record World := { app : AppState; backend : Backend }.

(** Asynchronous code run to completion: the awaited calls happen in order and
    a rejection propagates to the caller. *)
Definition Async (A : Type) := World -> Result A * World.

Definition aret {A} (a : A) : Async A := fun w => (Ok a, w).

Definition abind {A B} (m : Async A) (k : A -> Async B) : Async B :=
  fun w => match m w with
           | (Ok a, w') => k a w'
           | (Throw e, w') => (Throw e, w')
           end.

Notation "x <-- m ;;; k" := (abind m (fun x => k))
  (at level 61, m at next level, right associativity).

(** A call whose promise is dropped ([fetchData();] without [await]): its
    effects happen, its rejection does not reach the caller. *)
Definition detach (m : Async unit) : Async unit :=
  fun w => (Ok tt, snd (m w)).

(** A React state update. *)
Definition setState (f : AppState -> AppState) : Async unit :=
  fun w => (Ok tt, {| app := f (app w); backend := backend w |}).

(** A call to the backend: [read] on the current contents, [write] the new
    contents; both fail while the backend is offline. *)
Definition backend_call {A} (f : Backend -> A * Backend) : Async A :=
  fun w =>
    if db_online (backend w)
    then let '(a, db') := f (backend w) in (Ok a, {| app := app w; backend := db' |})
    else (Throw NetworkError, w).

Definition with_db_config (x : option SiteConfig.t) (d : Backend) : Backend :=
  {| db_online := db_online d; db_config := x; db_products := db_products d;
     db_blogs := db_blogs d; db_pages := db_pages d |}.
Definition with_db_products (x : list Product.t) (d : Backend) : Backend :=
  {| db_online := db_online d; db_config := db_config d; db_products := x;
     db_blogs := db_blogs d; db_pages := db_pages d |}.
Definition with_db_blogs (x : list BlogPost.t) (d : Backend) : Backend :=
  {| db_online := db_online d; db_config := db_config d; db_products := db_products d;
     db_blogs := x; db_pages := db_pages d |}.
Definition with_db_pages (x : list PageContent.t) (d : Backend) : Backend :=
  {| db_online := db_online d; db_config := db_config d; db_products := db_products d;
     db_blogs := db_blogs d; db_pages := x |}.

(** Upsert keyed by identifier: replace the entries with that identifier, or
    append when there is none. *)
Definition upsert {A} (key : A -> string) (x : A) (l : list A) : list A :=
  if existsb (fun y => String.eqb (key y) (key x)) l
  then map (fun y => if String.eqb (key y) (key x) then x else y) l
  else l ++ [x].

Definition remove_id {A} (key : A -> string) (k : string) (l : list A) : list A :=
  filter (fun y => negb (String.eqb (key y) k)) l.

Definition getSiteConfig : Async (option SiteConfig.t) :=
  backend_call (fun d => (db_config d, d)).
Definition getProducts : Async (list Product.t) :=
  backend_call (fun d => (db_products d, d)).
Definition getBlogs : Async (list BlogPost.t) :=
  backend_call (fun d => (db_blogs d, d)).
Definition getPages : Async (list PageContent.t) :=
  backend_call (fun d => (db_pages d, d)).

Definition saveProduct (p : Product.t) : Async unit :=
  backend_call (fun d => (tt, with_db_products (upsert Product.id p (db_products d)) d)).
Definition deleteProduct (i : string) : Async unit :=
  backend_call (fun d => (tt, with_db_products (remove_id Product.id i (db_products d)) d)).
Definition saveBlog (bp : BlogPost.t) : Async unit :=
  backend_call (fun d => (tt, with_db_blogs (upsert BlogPost.id bp (db_blogs d)) d)).
Definition deleteBlog (i : string) : Async unit :=
  backend_call (fun d => (tt, with_db_blogs (remove_id BlogPost.id i (db_blogs d)) d)).
Definition savePage (pg : PageContent.t) : Async unit :=
  backend_call (fun d => (tt, with_db_pages (upsert PageContent.id pg (db_pages d)) d)).
Definition deletePage (i : string) : Async unit :=
  backend_call (fun d => (tt, with_db_pages (remove_id PageContent.id i (db_pages d)) d)).
Definition saveSiteConfig (c : SiteConfig.t) : Async unit :=
  backend_call (fun d => (tt, with_db_config (Some c) d)).

(** [fetchData].  The four reads of [Promise.all] do not change the backend,
    so reading them one after the other gives the same values, and a
    rejection of any of them rejects the whole. *)
Definition fetchData : Async unit :=
  _ <-- setState (with_loading true) ;;;
  c <-- getSiteConfig ;;;
  p <-- getProducts ;;;
  bl <-- getBlogs ;;;
  pg <-- getPages ;;;
  _ <-- setState (with_config c) ;;;
  _ <-- setState (with_products p) ;;;
  _ <-- setState (with_blogs bl) ;;;
  _ <-- setState (with_pages pg) ;;;
  setState (with_loading false).

Definition onSaveProduct (p : Product.t) : Async unit :=
  _ <-- saveProduct p ;;; detach fetchData.
Definition onDeleteProduct (i : string) : Async unit :=
  _ <-- deleteProduct i ;;; detach fetchData.
Definition onSaveBlog (bp : BlogPost.t) : Async unit :=
  _ <-- saveBlog bp ;;; detach fetchData.
Definition onDeleteBlog (i : string) : Async unit :=
  _ <-- deleteBlog i ;;; detach fetchData.
Definition onSavePage (pg : PageContent.t) : Async unit :=
  _ <-- savePage pg ;;; detach fetchData.
Definition onDeletePage (i : string) : Async unit :=
  _ <-- deletePage i ;;; detach fetchData.
Definition onSaveConfig (c : SiteConfig.t) : Async unit :=
  _ <-- saveSiteConfig c ;;; detach fetchData.

(** The seven callbacks [App] hands to [AdminDashboard]. *)
Inductive AdminAction :=
| SaveProduct (p : Product.t) | DeleteProduct (i : string)
| SaveBlog (bp : BlogPost.t) | DeleteBlog (i : string)
| SavePage (pg : PageContent.t) | DeletePage (i : string)
| SaveConfig (c : SiteConfig.t).

Definition adminHandler (a : AdminAction) : Async unit :=
  match a with
  | SaveProduct p => onSaveProduct p
  | DeleteProduct i => onDeleteProduct i
  | SaveBlog bp => onSaveBlog bp
  | DeleteBlog i => onDeleteBlog i
  | SavePage pg => onSavePage pg
  | DeletePage i => onDeletePage i
  | SaveConfig c => onSaveConfig c
  end.

(** The write call each callback awaits first. *)
Definition adminWrite (a : AdminAction) : Async unit :=
  match a with
  | SaveProduct p => saveProduct p
  | DeleteProduct i => deleteProduct i
  | SaveBlog bp => saveBlog bp
  | DeleteBlog i => deleteBlog i
  | SavePage pg => savePage pg
  | DeletePage i => deletePage i
  | SaveConfig c => saveSiteConfig c
  end.

(* ------------------------------------------------------------------------- *)
(** * Browser-side effects of App *)

Definition with_isDarkMode (x : bool) (s : AppState) : AppState :=
  {| loading := loading s; view := view s; products := products s; blogs := blogs s;
     pages := pages s; config := config s; selectedProduct := selectedProduct s;
     selectedBlog := selectedBlog s; selectedPage := selectedPage s;
     isDarkMode := x; loginPassword := loginPassword s;
     loginError := loginError s; showPassword := showPassword s;
     authenticated := authenticated s |}.

Definition with_selectedProduct (x : option Product.t) (s : AppState) : AppState :=
  {| loading := loading s; view := view s; products := products s; blogs := blogs s;
     pages := pages s; config := config s; selectedProduct := x;
     selectedBlog := selectedBlog s; selectedPage := selectedPage s;
     isDarkMode := isDarkMode s; loginPassword := loginPassword s;
     loginError := loginError s; showPassword := showPassword s;
     authenticated := authenticated s |}.

Definition with_selectedBlog (x : option BlogPost.t) (s : AppState) : AppState :=
  {| loading := loading s; view := view s; products := products s; blogs := blogs s;
     pages := pages s; config := config s; selectedProduct := selectedProduct s;
     selectedBlog := x; selectedPage := selectedPage s;
     isDarkMode := isDarkMode s; loginPassword := loginPassword s;
     loginError := loginError s; showPassword := showPassword s;
     authenticated := authenticated s |}.

Definition with_selectedPage (x : option PageContent.t) (s : AppState) : AppState :=
  {| loading := loading s; view := view s; products := products s; blogs := blogs s;
     pages := pages s; config := config s; selectedProduct := selectedProduct s;
     selectedBlog := selectedBlog s; selectedPage := x;
     isDarkMode := isDarkMode s; loginPassword := loginPassword s;
     loginError := loginError s; showPassword := showPassword s;
     authenticated := authenticated s |}.

(** The parts of the browser [App] reads or writes besides React state: the
    parsed [URLSearchParams] of [window.location.search] (in order), the
    [localStorage] entry ['theme'], the [prefers-color-scheme: dark] media
    query and whether [document.documentElement.classList] contains ['dark']. *)
Record Browser := {
  searchParams : list (string * string);
  storedTheme : option string;
  prefersDark : bool;
  darkClass : bool
}.

(** [params.get(key)]: the first value under [key], or [null]. *)
Fixpoint params_get (key : string) (ps : list (string * string)) : option string :=
  match ps with
  | [] => None
  | (k, v) :: rest => if String.eqb k key then Some v else params_get key rest
  end.

(** [classList.add/remove('dark')] and [localStorage.setItem('theme', t)]. *)
Definition set_darkClass (x : bool) (br : Browser) : Browser :=
  {| searchParams := searchParams br; storedTheme := storedTheme br;
     prefersDark := prefersDark br; darkClass := x |}.
Definition set_storedTheme (t : string) (br : Browser) : Browser :=
  {| searchParams := searchParams br; storedTheme := Some t;
     prefersDark := prefersDark br; darkClass := darkClass br |}.

(** [!savedTheme] for a [localStorage.getItem] result. *)
Definition falsy_item (o : option string) : bool :=
  match o with None => true | Some t => String.eqb t "" end.

(** [toggleTheme] *)
Definition toggleTheme (s : AppState) (br : Browser) : AppState * Browser :=
  if isDarkMode s
  then (with_isDarkMode false s, set_storedTheme "light" (set_darkClass false br))
  else (with_isDarkMode true s, set_storedTheme "dark" (set_darkClass true br)).

(** The mount effect: [fetchData()] (not awaited, run to completion here),
    the [?page=admin] entry point and the initial colour scheme. *)
Definition mountEffect (w : World) (br : Browser) : World * Browser :=
  let w1 := snd (detach fetchData w) in
  let s1 := if match params_get "page" (searchParams br) with
               | Some p => String.eqb p "admin" | None => false end
            then with_view ADMIN_LOGIN (app w1) else app w1 in
  let savedTheme := storedTheme br in
  if match savedTheme with Some t => String.eqb t "dark" | None => false end
     || (falsy_item savedTheme && prefersDark br)
  then ({| app := with_isDarkMode true s1; backend := backend w1 |}, set_darkClass true br)
  else ({| app := s1; backend := backend w1 |}, br).

(** The custom properties of [document.documentElement.style]. *)
Definition Style := string -> option string.

(** [root.style.setProperty(k, v)] *)
Definition setProperty (k v : string) (st : Style) : Style :=
  fun x => if String.eqb x k then Some v else st x.

(** [applyTheme] together with its writes to the root style. *)
Definition applyThemeTo (hex : JSValue) (st : Style) : Style :=
  fold_left (fun st' kv => setProperty (fst kv) (snd kv) st') (Theme.applyTheme hex) st.

(** The effect on [config]: [if (config && config.themeColor) applyTheme(...)]. *)
Definition themeEffect (cfg : option SiteConfig.t) (st : Style) : Style :=
  match cfg with
  | Some c => if String.eqb (SiteConfig.themeColor c) "" then st
              else applyThemeTo (JSString (SiteConfig.themeColor c)) st
  | None => st
  end.

(** Modelled from the spec: [logout], which clears the persisted
    authentication flag. *)
Definition logout (s : AppState) : AppState := with_authenticated false s.

(** The dashboard's [onLogout] callback. *)
Definition onLogout (s : AppState) : AppState := with_view HOME (logout s).

(** The [selectProduct], [selectBlog] and [onPageClick] callbacks of the
    pages, layout and footer ([window.scrollTo(0,0)] moves the viewport,
    which is not part of this model). *)
Definition selectProduct (p : Product.t) (s : AppState) : AppState :=
  with_view PRODUCT_DETAIL (with_selectedProduct (Some p) s).
Definition selectBlog (bp : BlogPost.t) (s : AppState) : AppState :=
  with_view BLOG_DETAIL (with_selectedBlog (Some bp) s).
Definition onPageClick (pg : PageContent.t) (s : AppState) : AppState :=
  with_view DYNAMIC_PAGE (with_selectedPage (Some pg) s).

(** A list of channel values that never increases. *)
Fixpoint nonincreasing (l : list Z) : bool :=
  match l with
  | x :: ((y :: _) as rest) => Z.leb y x && nonincreasing rest
  | _ => true
  end.

(** Two-digit lower-case hexadecimal spelling of a channel value. *)
Definition hex_char (d : Z) : ascii :=
  ascii_of_nat (Z.to_nat (if (d <? 10)%Z then 48 + d else 87 + d)%Z).
Definition hex2 (z : Z) : string :=
  String (hex_char (z / 16)) (String (hex_char (z mod 16)) EmptyString).

(* ------------------------------------------------------------------------- *)
(** * Sample values *)

Definition demoConfig : SiteConfig.t :=
  {| SiteConfig.shopName := "Audio Mobil"; SiteConfig.logoUrl := None;
     SiteConfig.themeColor := "#2563EB"; SiteConfig.whatsappNumber := "62800";
     SiteConfig.address := "Jakarta"; SiteConfig.email := "shop@example.com";
     SiteConfig.welcomeMessage := "Selamat datang";
     SiteConfig.footerDescription := "Audio"; SiteConfig.heroImage := None;
     SiteConfig.aboutUsTitle := "Tentang"; SiteConfig.aboutUsContent := "Toko";
     SiteConfig.aboutUsImage := "about.png" |}.

Definition demoProduct : Product.t :=
  {| Product.id := "p1"; Product.name := "Head Unit"; Product.category := "Audio";
     Product.price := 1500000; Product.description := "Double din";
     Product.image := "hu.png"; Product.featured := true |}.

Definition demoBackend : Backend :=
  {| db_online := true; db_config := Some demoConfig; db_products := [demoProduct];
     db_blogs := []; db_pages := [] |}.

(* ========================================================================= *)
(** * Proofs: Theme Engine *)

Module ThemeFacts.
Import Theme.

Definition in_range (c : RGB) : Prop :=
  (0 <= r c <= 255 /\ 0 <= g c <= 255 /\ 0 <= b c <= 255)%Z.

Lemma hex_digit_value_range (c : ascii) :
  is_hex_digit c = true -> exists d, hex_digit_value c = Some d /\ (0 <= d <= 15)%Z.
Proof.
  destruct c as [[] [] [] [] [] [] [] []]; intro H; vm_compute in H;
    try discriminate; (eexists; split; [vm_compute; reflexivity | lia]).
Qed.

Lemma group_value_range (c1 c2 : ascii) :
  is_hex_digit c1 = true -> is_hex_digit c2 = true ->
  (0 <= group_value (String c1 (String c2 EmptyString)) <= 255)%Z.
Proof.
  intros H1 H2.
  destruct (hex_digit_value_range c1 H1) as (d1 & E1 & R1).
  destruct (hex_digit_value_range c2 H2) as (d2 & E2 & R2).
  unfold group_value, parseInt16; cbn [parseInt16_acc]; rewrite E1; cbn [parseInt16_acc]; rewrite E2; cbn [parseInt16_acc]. lia.
Qed.

Lemma group_value_digits (c1 c2 : ascii) (d1 d2 : Z) :
  hex_digit_value c1 = Some d1 -> hex_digit_value c2 = Some d2 ->
  group_value (String c1 (String c2 EmptyString)) = (16 * d1 + d2)%Z.
Proof.
  intros E1 E2. unfold group_value, parseInt16. cbn [parseInt16_acc].
  rewrite E1. cbn [parseInt16_acc]. rewrite E2. cbn [parseInt16_acc]. f_equal; lia.
Qed.

Lemma six_digits_groups (body : string) g1 g2 g3 :
  match body with
  | String c1 (String c2 (String c3 (String c4 (String c5 (String c6 EmptyString))))) =>
      if is_hex_digit c1 && is_hex_digit c2 && is_hex_digit c3
         && is_hex_digit c4 && is_hex_digit c5 && is_hex_digit c6
      then Some (String c1 (String c2 EmptyString),
                 String c3 (String c4 EmptyString),
                 String c5 (String c6 EmptyString))
      else None
  | _ => None
  end = Some (g1, g2, g3) ->
  (0 <= group_value g1 <= 255 /\ 0 <= group_value g2 <= 255
   /\ 0 <= group_value g3 <= 255)%Z.
Proof.
  destruct body as [|c1 [|c2 [|c3 [|c4 [|c5 [|c6 [|]]]]]]]; try discriminate.
  destruct (is_hex_digit c1) eqn:H1, (is_hex_digit c2) eqn:H2,
           (is_hex_digit c3) eqn:H3, (is_hex_digit c4) eqn:H4,
           (is_hex_digit c5) eqn:H5, (is_hex_digit c6) eqn:H6;
    simpl; try discriminate.
  intro E; injection E as <- <- <-.
  repeat split; apply group_value_range; assumption.
Qed.

Lemma hexToRgb_in_range (v : JSValue) : in_range (hexToRgb v).
Proof.
  unfold hexToRgb.
  destruct (falsy v || negb (is_string v)).
  { unfold in_range; simpl; lia. }
  destruct v as [s| | | |]; try (unfold in_range; simpl; lia).
  destruct (hex_regex_exec s) as [[[g1 g2] g3]|] eqn:E.
  2: { unfold in_range; simpl; lia. }
  unfold hex_regex_exec in E.
  apply six_digits_groups in E. unfold in_range; simpl. exact E.
Qed.

Lemma Math_round_in_range (q : Q) :
  0 <= q <= 255 -> (0 <= Math_round q <= 255)%Z.
Proof.
  intros Hq. unfold Math_round.
  pose proof (Qfloor_le (q + (1 # 2))) as Hle.
  pose proof (Qlt_floor (q + (1 # 2))) as Hlt.
  rewrite inject_Z_plus in Hlt.
  set (f := Qfloor (q + (1 # 2))) in *.
  assert (inject_Z (-1) < inject_Z f /\ inject_Z f < inject_Z 256) as [H1 H2].
  { change (inject_Z (-1)) with (-1 # 1) in *.
    change (inject_Z 256) with (256 # 1). change (inject_Z 1) with (1 # 1) in Hlt.
    generalize dependent (inject_Z f); intros; lra. }
  rewrite <- Zlt_Qlt in H1, H2. lia.
Qed.

Lemma blend_in_range (x y : Z) (w : Q) :
  (0 <= x <= 255)%Z -> (0 <= y <= 255)%Z -> 0 <= w <= 1 ->
  (0 <= Math_round (inject_Z x * (1 - w) + inject_Z y * w) <= 255)%Z.
Proof.
  intros Hx Hy Hw. apply Math_round_in_range.
  destruct Hx as [Hx0 Hx1]; destruct Hy as [Hy0 Hy1].
  rewrite Zle_Qle in Hx0, Hx1, Hy0, Hy1.
  change (inject_Z 0) with 0 in *. change (inject_Z 255) with (255 # 1) in *.
  generalize dependent (inject_Z x); generalize dependent (inject_Z y).
  intros Y Hy0 Hy1 X Hx0 Hx1.
  assert (0 <= X * (1 - w)) by (apply Qmult_le_0_compat; lra).
  assert (0 <= Y * w) by (apply Qmult_le_0_compat; lra).
  assert (X * (1 - w) <= (255 # 1) * (1 - w)) by (apply Qmult_le_compat_r; lra).
  assert (Y * w <= (255 # 1) * w) by (apply Qmult_le_compat_r; lra).
  split; lra.
Qed.

Lemma mix_in_range (c1 c2 : RGB) (w : Q) :
  in_range c1 -> in_range c2 -> 0 <= w <= 1 -> in_range (mix c1 c2 w).
Proof.
  intros (R1 & G1 & B1) (R2 & G2 & B2) Hw.
  unfold in_range, mix; simpl.
  repeat split; apply blend_in_range; auto; lia.
Qed.

Lemma palette_in_range (base : RGB) :
  in_range base -> Forall (fun kv => in_range (snd kv)) (palette base).
Proof.
  intro Hb.
  assert (Hw : in_range white) by (unfold in_range; simpl; lia).
  assert (Hk : in_range black) by (unfold in_range; simpl; lia).
  unfold palette.
  repeat (apply Forall_cons;
          [simpl; first [exact Hb | apply mix_in_range; auto; unfold Qle; simpl; lia] |]).
  apply Forall_nil.
Qed.

Lemma hex_digit_not_hash (c : ascii) :
  is_hex_digit c = true -> Ascii.eqb c "#"%char = false.
Proof.
  destruct c as [[] [] [] [] [] [] [] []]; vm_compute; congruence.
Qed.

Lemma is_hex_digit_upper (c : ascii) : is_hex_digit (toUpperAscii c) = is_hex_digit c.
Proof. destruct c as [[] [] [] [] [] [] [] []]; reflexivity. Qed.

Lemma is_hex_digit_lower (c : ascii) : is_hex_digit (toLowerAscii c) = is_hex_digit c.
Proof. destruct c as [[] [] [] [] [] [] [] []]; reflexivity. Qed.

Lemma hex_digit_value_upper (c : ascii) :
  is_hex_digit c = true -> hex_digit_value (toUpperAscii c) = hex_digit_value c.
Proof. destruct c as [[] [] [] [] [] [] [] []]; vm_compute; congruence. Qed.

Lemma hex_digit_value_lower (c : ascii) :
  is_hex_digit c = true -> hex_digit_value (toLowerAscii c) = hex_digit_value c.
Proof. destruct c as [[] [] [] [] [] [] [] []]; vm_compute; congruence. Qed.

Lemma group_value_map (f : ascii -> ascii) (c1 c2 : ascii) :
  hex_digit_value (f c1) = hex_digit_value c1 ->
  hex_digit_value (f c2) = hex_digit_value c2 ->
  group_value (String (f c1) (String (f c2) EmptyString))
  = group_value (String c1 (String c2 EmptyString)).
Proof.
  intros E1 E2. unfold group_value, parseInt16. cbn [parseInt16_acc].
  rewrite E1, E2. reflexivity.
Qed.

(** The regex on six digits, with or without the leading [#]. *)
Lemma hex_regex_exec_six (c1 c2 c3 c4 c5 c6 : ascii) :
  is_hex_digit c1 = true -> is_hex_digit c2 = true -> is_hex_digit c3 = true ->
  is_hex_digit c4 = true -> is_hex_digit c5 = true -> is_hex_digit c6 = true ->
  let groups := Some (String c1 (String c2 EmptyString),
                      String c3 (String c4 EmptyString),
                      String c5 (String c6 EmptyString)) in
  hex_regex_exec (String c1 (String c2 (String c3 (String c4 (String c5
                   (String c6 EmptyString)))))) = groups /\
  hex_regex_exec (String "#" (String c1 (String c2 (String c3 (String c4
                   (String c5 (String c6 EmptyString))))))) = groups.
Proof.
  intros H1 H2 H3 H4 H5 H6 groups. unfold hex_regex_exec.
  cbv beta iota zeta. rewrite (hex_digit_not_hash c1 H1).
  change (Ascii.eqb "#" "#") with true. cbv beta iota.
  rewrite H1, H2, H3, H4, H5, H6. split; reflexivity.
Qed.

Lemma hexToRgb_nonempty_string (s : string) :
  s <> EmptyString ->
  hexToRgb (JSString s) =
    match hex_regex_exec s with
    | Some (g1, g2, g3) =>
        {| r := group_value g1; g := group_value g2; b := group_value g3 |}
    | None => default_rgb
    end.
Proof. destruct s; [contradiction | reflexivity]. Qed.

End ThemeFacts.

(* ========================================================================= *)
(** * Claims about the Theme Engine *)

Module ThemeClaims.
Import Theme ThemeFacts.

(** C1: for every valid 6-digit hex colour (a string the colour regex
    accepts), [applyTheme] sets exactly the eleven properties
    [--brand-50] ... [--brand-950], and each value is the "R G B" triple of a
    colour whose three integer channels lie in [0,255]. *)
Theorem applyTheme_eleven_shades_in_range (s : string) :
  hex_regex_exec s <> None ->
  map fst (applyTheme (JSString s)) =
    ["--brand-50"; "--brand-100"; "--brand-200"; "--brand-300"; "--brand-400";
     "--brand-500"; "--brand-600"; "--brand-700"; "--brand-800"; "--brand-900";
     "--brand-950"] /\
  Forall (fun kv => exists c, snd kv = rgb_triple c /\ in_range c)
         (applyTheme (JSString s)).
Proof.
  intros _. split.
  - reflexivity.
  - unfold applyTheme. apply Forall_map.
    eapply Forall_impl; [| apply palette_in_range, hexToRgb_in_range].
    intros [k v] H. exists v. split; [reflexivity | exact H].
Qed.

Lemma applyTheme_eleven_shades_in_range_witness :
  hex_regex_exec "#2563EB" <> None /\
  map fst (applyTheme (JSString "#2563EB")) =
    ["--brand-50"; "--brand-100"; "--brand-200"; "--brand-300"; "--brand-400";
     "--brand-500"; "--brand-600"; "--brand-700"; "--brand-800"; "--brand-900";
     "--brand-950"] /\
  Forall (fun kv => exists c, snd kv = rgb_triple c /\ in_range c)
         (applyTheme (JSString "#2563EB")).
Proof.
  assert (H : hex_regex_exec "#2563EB" <> None) by (vm_compute; discriminate).
  split; [exact H | apply (applyTheme_eleven_shades_in_range "#2563EB" H)].
Defined.

(** C2: for every value that is not a string the colour regex accepts (the
    empty string, any other string, and every non-string value),
    [hexToRgb] returns the default blue [{37, 99, 235}] and [applyTheme]
    writes the palette of the default colour [#2563EB]; both are total
    functions, so no error is raised. *)
Theorem hexToRgb_invalid_is_default (v : JSValue) :
  (forall s, v = JSString s -> hex_regex_exec s = None) ->
  hexToRgb v = {| r := 37; g := 99; b := 235 |} /\
  applyTheme v = applyTheme (JSString "#2563EB").
Proof.
  intros Hinv.
  assert (E : hexToRgb v = default_rgb).
  { unfold hexToRgb.
    destruct (falsy v || negb (is_string v)); [reflexivity |].
    destruct v as [s| | | |]; try reflexivity.
    rewrite (Hinv s eq_refl). reflexivity. }
  split; [exact E |].
  unfold applyTheme. rewrite E. reflexivity.
Qed.

Lemma hexToRgb_invalid_is_default_witness :
  hexToRgb (JSString "") = {| r := 37; g := 99; b := 235 |} /\
  hexToRgb JSNull = {| r := 37; g := 99; b := 235 |} /\
  applyTheme (JSString "blue") = applyTheme (JSString "#2563EB").
Proof.
  split; [| split].
  - apply (hexToRgb_invalid_is_default (JSString "")).
    intros s H; injection H as <-; reflexivity.
  - apply (hexToRgb_invalid_is_default JSNull). intros s H; discriminate.
  - apply (hexToRgb_invalid_is_default (JSString "blue")).
    intros s H; injection H as <-; reflexivity.
Defined.

(** C8: for [#2563EB], shade 600 is the base colour [{37, 99, 235}] and
    shade 950 is the base blended 60% towards black with each channel
    rounded to the nearest integer, [{15, 40, 94}]; the properties written
    are ["37 99 235"] and ["15 40 94"]. *)
Theorem palette_2563EB_shades :
  let base := hexToRgb (JSString "#2563EB") in
  base = {| r := 37; g := 99; b := 235 |} /\
  shade 600 (palette base) = Some base /\
  shade 950 (palette base) = Some (mix base black (6 # 10)) /\
  mix base black (6 # 10) = {| r := 15; g := 40; b := 94 |} /\
  In ("--brand-600", "37 99 235") (applyTheme (JSString "#2563EB")) /\
  In ("--brand-950", "15 40 94") (applyTheme (JSString "#2563EB")).
Proof.
  vm_compute. repeat split; auto 20.
Qed.

(** C9: the colour parser accepts six hexadecimal digits with or without a
    leading [#] and reads the digits case-insensitively: for every string
    [s] of six hexadecimal digits, the regex accepts [s], ["#" ++ s] and
    their upper-case and lower-case forms, all of them parse to the same
    colour, and that colour is the one the digits spell, each channel being
    [16 * high digit + low digit]. *)
Theorem hexToRgb_hash_optional_case_insensitive (s : string) :
  is_hex6 s = true ->
  (exists c1 c2 c3 c4 c5 c6 d1 d2 d3 d4 d5 d6,
     s = String c1 (String c2 (String c3 (String c4 (String c5 (String c6 EmptyString))))) /\
     hex_digit_value c1 = Some d1 /\ hex_digit_value c2 = Some d2 /\
     hex_digit_value c3 = Some d3 /\ hex_digit_value c4 = Some d4 /\
     hex_digit_value c5 = Some d5 /\ hex_digit_value c6 = Some d6 /\
     hexToRgb (JSString s) =
       {| r := 16 * d1 + d2; g := 16 * d3 + d4; b := 16 * d5 + d6 |}%Z) /\
  Forall (fun t => hex_regex_exec t <> None /\ hexToRgb (JSString t) = hexToRgb (JSString s))
    [s; "#" ++ s; toUpperCase s; "#" ++ toUpperCase s; toLowerCase s; "#" ++ toLowerCase s].
Proof.
  intro H.
  destruct s as [|c1 [|c2 [|c3 [|c4 [|c5 [|c6 [|c7 s]]]]]]];
    unfold is_hex6 in H; cbn [String.length Nat.eqb andb] in H; try discriminate.
  cbn [all_chars] in H.
  repeat rewrite andb_true_iff in H.
  destruct H as (H1 & H2 & H3 & H4 & H5 & H6 & _).
  unfold toUpperCase, toLowerCase; cbn [map_string append].
  pose proof (hex_regex_exec_six _ _ _ _ _ _ H1 H2 H3 H4 H5 H6) as [P Q].
  pose proof (hex_regex_exec_six (toUpperAscii c1) (toUpperAscii c2)
     (toUpperAscii c3) (toUpperAscii c4) (toUpperAscii c5) (toUpperAscii c6))
    as U.
  pose proof (hex_regex_exec_six (toLowerAscii c1) (toLowerAscii c2)
     (toLowerAscii c3) (toLowerAscii c4) (toLowerAscii c5) (toLowerAscii c6))
    as L.
  rewrite !is_hex_digit_upper in U. rewrite !is_hex_digit_lower in L.
  destruct (U H1 H2 H3 H4 H5 H6) as [UP UQ].
  destruct (L H1 H2 H3 H4 H5 H6) as [LP LQ].
  split.
  - destruct (hex_digit_value_range c1 H1) as (d1 & D1 & _).
    destruct (hex_digit_value_range c2 H2) as (d2 & D2 & _).
    destruct (hex_digit_value_range c3 H3) as (d3 & D3 & _).
    destruct (hex_digit_value_range c4 H4) as (d4 & D4 & _).
    destruct (hex_digit_value_range c5 H5) as (d5 & D5 & _).
    destruct (hex_digit_value_range c6 H6) as (d6 & D6 & _).
    exists c1, c2, c3, c4, c5, c6, d1, d2, d3, d4, d5, d6.
    repeat (split; [first [reflexivity | assumption] |]).
    rewrite hexToRgb_nonempty_string by discriminate.
    rewrite P. cbv beta iota.
    rewrite !group_value_digits with (d1 := d1) (d2 := d2),
            !group_value_digits with (d1 := d3) (d2 := d4),
            !group_value_digits with (d1 := d5) (d2 := d6) by assumption.
    reflexivity.
  - repeat (apply Forall_cons; [split |]); try apply Forall_nil;
      try (first [rewrite P | rewrite Q | rewrite UP | rewrite UQ
                 | rewrite LP | rewrite LQ]; discriminate);
      rewrite !hexToRgb_nonempty_string by discriminate;
      rewrite ?P, ?Q, ?UP, ?UQ, ?LP, ?LQ; cbv beta iota;
      rewrite ?(group_value_map toUpperAscii) by (apply hex_digit_value_upper; assumption);
      rewrite ?(group_value_map toLowerAscii) by (apply hex_digit_value_lower; assumption);
      reflexivity.
Qed.

Lemma hexToRgb_hash_optional_case_insensitive_witness :
  is_hex6 "2563eB" = true /\
  hexToRgb (JSString "2563eB") = {| r := 37; g := 99; b := 235 |} /\
  hex_regex_exec ("#" ++ toUpperCase "2563eB") <> None /\
  hexToRgb (JSString ("#" ++ toLowerCase "2563eB")) = hexToRgb (JSString "2563eB").
Proof.
  assert (H : is_hex6 "2563eB" = true) by reflexivity.
  destruct (hexToRgb_hash_optional_case_insensitive "2563eB" H) as [_ HF].
  split; [exact H | split; [vm_compute; reflexivity |]].
  inversion HF as [| ? ? _ HF1]. inversion HF1 as [| ? ? _ HF2].
  inversion HF2 as [| ? ? _ HF3]. inversion HF3 as [| ? ? [HR _] HF4].
  inversion HF4 as [| ? ? _ HF5]. inversion HF5 as [| ? ? [_ HE] _].
  split; [exact HR | exact HE].
Defined.

End ThemeClaims.

(* ========================================================================= *)
(** * Proofs: the App shell *)

Module AppFacts.

Lemma with_authenticated_same (s : AppState) :
  with_authenticated (authenticated s) s = s.
Proof. destruct s; reflexivity. Qed.

(** [renderContent] never throws and never yields the loading indicator. *)
Lemma renderContent_total (c : SiteConfig.t) (s : AppState) :
  exists n s', renderContent c s = (Ok n, s') /\ n <> NLoader.
Proof.
  unfold renderContent.
  destruct (view s); try destruct (checkIsAuthenticated s);
    try destruct (selectedProduct s); try destruct (selectedBlog s);
    try destruct (selectedPage s);
    (eexists _, _; split; [reflexivity | discriminate]).
Qed.

Lemma renderContent_dashboard_unauthenticated (c : SiteConfig.t) (s : AppState) :
  view s = ADMIN_DASHBOARD -> checkIsAuthenticated s = false ->
  renderContent c s = (Ok NNull, with_view ADMIN_LOGIN s).
Proof.
  intros Hv Ha. unfold renderContent. rewrite Hv, Ha. reflexivity.
Qed.

(** A successful backend call leaves the backend online. *)
Lemma backend_call_ok_online {A} (f : Backend -> A * Backend) (w w' : World) (a : A) :
  (forall d, db_online (snd (f d)) = db_online d) ->
  backend_call f w = (Ok a, w') ->
  db_online (backend w') = true /\ app w' = app w /\ backend w' = snd (f (backend w)).
Proof.
  intros Hf. unfold backend_call.
  destruct (db_online (backend w)) eqn:On; [| discriminate].
  destruct (f (backend w)) as [x d'] eqn:F.
  intro E; injection E as <- <-; simpl.
  rewrite <- On. pose proof (Hf (backend w)) as Hd. rewrite F in Hd. simpl in Hd.
  repeat split; auto.
Qed.

Lemma adminWrite_ok_online (a : AdminAction) (w w' : World) :
  adminWrite a w = (Ok tt, w') ->
  db_online (backend w') = true /\ app w' = app w.
Proof.
  intro H.
  destruct a; simpl in H; apply backend_call_ok_online in H;
    try (intros; reflexivity); tauto.
Qed.

(** [fetchData] against a reachable backend replaces the four collections. *)
Lemma fetchData_online (s : AppState) (d : Backend) :
  db_online d = true ->
  fetchData {| app := s; backend := d |} =
  (Ok tt, {| app := with_loading false (with_pages (db_pages d)
                   (with_blogs (db_blogs d) (with_products (db_products d)
                   (with_config (db_config d) (with_loading true s)))));
             backend := d |}).
Proof.
  intro On. destruct d as [on cfg ps bs pgs]; simpl in On; subst on.
  reflexivity.
Qed.

End AppFacts.

(* ========================================================================= *)
(** * Claims about the App shell *)

Module AppClaims.
Import AppFacts.

(** C3: when the view is [ADMIN_DASHBOARD] and [checkIsAuthenticated()] is
    false, [renderContent] schedules [setView(ADMIN_LOGIN)] and renders
    [null]; no render of [App] from such a state shows the dashboard. *)
Theorem dashboard_unauthenticated_redirects (c : SiteConfig.t) (s : AppState) :
  view s = ADMIN_DASHBOARD -> checkIsAuthenticated s = false ->
  renderContent c s = (Ok NNull, with_view ADMIN_LOGIN s) /\
  (forall n s', renderApp s = (Ok n, s') -> shows_dashboard n = false).
Proof.
  intros Hv Ha. split.
  - apply renderContent_dashboard_unauthenticated; assumption.
  - intros n s'. unfold renderApp.
    destruct (loading s || negb (isSome (config s))).
    { intro E; injection E as <- _; reflexivity. }
    destruct (config s) as [c'|].
    + rewrite Hv; simpl.
      rewrite (renderContent_dashboard_unauthenticated c' s Hv Ha).
      intro E; injection E as <- _; reflexivity.
    + intro E; injection E as <- _; reflexivity.
Qed.

Lemma dashboard_unauthenticated_redirects_witness :
  let s := with_config (Some demoConfig) (with_loading false
             (with_view ADMIN_DASHBOARD (initialState false))) in
  (view s = ADMIN_DASHBOARD /\ checkIsAuthenticated s = false) /\
  renderContent demoConfig s = (Ok NNull, with_view ADMIN_LOGIN s) /\
  (forall n s', renderApp s = (Ok n, s') -> shows_dashboard n = false).
Proof.
  intro s. split; [split; reflexivity |].
  apply (dashboard_unauthenticated_redirects demoConfig s); reflexivity.
Defined.

(** C4: on the login view, a submission that [login] rejects yields
    [{success: false, error: "Login gagal"}]; the only state change is the
    inline error ["Login gagal"], the view stays [ADMIN_LOGIN], and the
    login form then shows that error. *)
Theorem login_failure_shows_error_only (secret : string) (s : AppState) :
  view s = ADMIN_LOGIN ->
  success (fst (login secret (loginPassword s) (authenticated s))) = false ->
  fst (login secret (loginPassword s) (authenticated s))
    = {| success := false; error := Some "Login gagal" |} /\
  handleLoginSubmit secret s = with_loginError "Login gagal" s /\
  view (handleLoginSubmit secret s) = ADMIN_LOGIN /\
  (forall c, renderContent c (handleLoginSubmit secret s) =
     (Ok (NFragment [NSeoHead "Admin Login" "Restricted Area" c;
                     NAdminLogin (loginPassword s) (showPassword s)
                                 (Some "Login gagal")]),
      handleLoginSubmit secret s)).
Proof.
  intros Hv Hf.
  assert (Hl : fst (login secret (loginPassword s) (authenticated s))
               = {| success := false; error := Some "Login gagal" |}).
  { unfold login in *. destruct (String.eqb (loginPassword s) secret);
      [discriminate | reflexivity]. }
  assert (Hs : handleLoginSubmit secret s = with_loginError "Login gagal" s).
  { unfold handleLoginSubmit, login in *.
    destruct (String.eqb (loginPassword s) secret); [discriminate |].
    simpl. rewrite with_authenticated_same. reflexivity. }
  split; [exact Hl | split; [exact Hs |]].
  rewrite Hs. split; [exact Hv |].
  intro c. unfold renderContent. simpl. rewrite Hv. reflexivity.
Qed.

Lemma login_failure_shows_error_only_witness :
  let s := with_loginPassword "salah" (with_view ADMIN_LOGIN (initialState false)) in
  (view s = ADMIN_LOGIN /\
   success (fst (login "rahasia" (loginPassword s) (authenticated s))) = false) /\
  handleLoginSubmit "rahasia" s = with_loginError "Login gagal" s.
Proof.
  intro s. split; [split; reflexivity |].
  apply (login_failure_shows_error_only "rahasia" s); reflexivity.
Defined.

(** C10: a submission that [login] accepts clears the password field and
    the login error and switches the view to [ADMIN_DASHBOARD]. *)
Theorem login_success_enters_dashboard (secret : string) (s : AppState) :
  success (fst (login secret (loginPassword s) (authenticated s))) = true ->
  loginPassword (handleLoginSubmit secret s) = "" /\
  loginError (handleLoginSubmit secret s) = "" /\
  view (handleLoginSubmit secret s) = ADMIN_DASHBOARD.
Proof.
  intro Hs. unfold handleLoginSubmit.
  destruct (login secret (loginPassword s) (authenticated s)) as [res flag].
  simpl in Hs. rewrite Hs. repeat split.
Qed.

Lemma login_success_enters_dashboard_witness :
  let s := with_loginPassword "rahasia" (with_loginError "Login gagal"
             (with_view ADMIN_LOGIN (initialState false))) in
  success (fst (login "rahasia" (loginPassword s) (authenticated s))) = true /\
  view (handleLoginSubmit "rahasia" s) = ADMIN_DASHBOARD.
Proof.
  intro s. split; [reflexivity |].
  apply (login_success_enters_dashboard "rahasia" s); reflexivity.
Defined.

(** C5: rendering a detail view with no selection does not throw: the
    product detail view falls back to the shop list, the blog detail view
    renders an empty [<div />] and the dynamic page view renders [null];
    no render of [App] throws at all. *)
Theorem detail_views_without_selection (c : SiteConfig.t) (s : AppState) :
  (view s = PRODUCT_DETAIL -> selectedProduct s = None ->
     renderContent c s = (Ok (NShop (products s)), s)) /\
  (view s = BLOG_DETAIL -> selectedBlog s = None ->
     renderContent c s = (Ok NEmptyDiv, s)) /\
  (view s = DYNAMIC_PAGE -> selectedPage s = None ->
     renderContent c s = (Ok NNull, s)) /\
  (exists n s', renderApp s = (Ok n, s')).
Proof.
  split; [| split; [| split]];
    try (intros Hv Hsel; unfold renderContent; rewrite Hv, Hsel; reflexivity).
  unfold renderApp.
  destruct (loading s || negb (isSome (config s))); [eexists _, _; reflexivity |].
  destruct (config s) as [c'|]; [| eexists _, _; reflexivity].
  destruct (renderContent_total c' s) as (n & s' & E & _).
  destruct (PageView_eqb (view s) ADMIN_DASHBOARD || PageView_eqb (view s) ADMIN_LOGIN).
  - exists n, s'. exact E.
  - unfold bind. rewrite E. eexists _, _; reflexivity.
Qed.

Lemma detail_views_without_selection_witness :
  let s := with_view PRODUCT_DETAIL (initialState false) in
  (view s = PRODUCT_DETAIL /\ selectedProduct s = None) /\
  renderContent demoConfig s = (Ok (NShop []), s).
Proof.
  intro s. split; [split; reflexivity |].
  apply (detail_views_without_selection demoConfig s); reflexivity.
Defined.

(** C6: once an admin callback's write call has completed, the callback
    runs [fetchData], which re-reads all four collections and replaces the
    in-memory configuration, products, blogs and pages with the values read
    (whatever they were before) and clears [loading]. *)
Theorem admin_mutation_reloads_all (a : AdminAction) (s s1 : AppState)
    (db db1 : Backend) :
  adminWrite a {| app := s; backend := db |} = (Ok tt, {| app := s1; backend := db1 |}) ->
  exists s', adminHandler a {| app := s; backend := db |}
             = (Ok tt, {| app := s'; backend := db1 |}) /\
    config s' = db_config db1 /\ products s' = db_products db1 /\
    blogs s' = db_blogs db1 /\ pages s' = db_pages db1 /\ loading s' = false.
Proof.
  intro Hw.
  destruct (adminWrite_ok_online a _ _ Hw) as [On Happ]; simpl in On, Happ; subst s1.
  assert (Hh : adminHandler a {| app := s; backend := db |}
               = detach fetchData {| app := s; backend := db1 |}).
  { destruct a; simpl in Hw |- *; unfold abind;
      [ unfold onSaveProduct | unfold onDeleteProduct | unfold onSaveBlog
      | unfold onDeleteBlog | unfold onSavePage | unfold onDeletePage
      | unfold onSaveConfig ]; unfold abind; rewrite Hw; reflexivity. }
  rewrite Hh. unfold detach. rewrite (fetchData_online s db1 On).
  eexists. split; [reflexivity |]. simpl. repeat split.
Qed.

Lemma admin_mutation_reloads_all_witness :
  adminWrite (DeleteProduct "p1") {| app := initialState true; backend := demoBackend |}
    = (Ok tt, {| app := initialState true; backend := with_db_products [] demoBackend |}) /\
  exists s', adminHandler (DeleteProduct "p1")
               {| app := initialState true; backend := demoBackend |}
             = (Ok tt, {| app := s'; backend := with_db_products [] demoBackend |}) /\
    config s' = Some demoConfig /\ products s' = [] /\
    blogs s' = [] /\ pages s' = [] /\ loading s' = false.
Proof.
  assert (Hw : adminWrite (DeleteProduct "p1")
                 {| app := initialState true; backend := demoBackend |}
               = (Ok tt, {| app := initialState true;
                            backend := with_db_products [] demoBackend |}))
    by reflexivity.
  split; [exact Hw |].
  exact (admin_mutation_reloads_all (DeleteProduct "p1") (initialState true)
           (initialState true) demoBackend (with_db_products [] demoBackend) Hw).
Defined.

(** C7: while [loading] is true or [config] is null, [App] renders only the
    loading indicator and changes nothing; conversely, whenever it renders
    anything else, [loading] is false and [config] is non-null.  The initial
    state, before the first [fetchData] completes, is such a state. *)
Theorem loading_guard_only_loader (s : AppState) :
  (loading s = true \/ config s = None -> renderApp s = (Ok NLoader, s)) /\
  (forall n s', renderApp s = (Ok n, s') -> n <> NLoader ->
     loading s = false /\ exists c, config s = Some c) /\
  (forall flag, loading (initialState flag) = true /\
                renderApp (initialState flag) = (Ok NLoader, initialState flag)).
Proof.
  split; [| split].
  - intros H. unfold renderApp.
    destruct H as [H | H]; rewrite H; simpl; [reflexivity |].
    rewrite orb_true_r. reflexivity.
  - intros n s' E Hn. unfold renderApp in E.
    destruct (loading s) eqn:Hl; simpl in E.
    { injection E as <- _; contradiction. }
    destruct (config s) as [c|] eqn:Hc; simpl in E.
    2: { injection E as <- _; contradiction. }
    split; [reflexivity | exists c; reflexivity].
  - intro flag. split; reflexivity.
Qed.

Lemma loading_guard_only_loader_witness :
  (loading (initialState false) = true \/ config (initialState false) = None) /\
  renderApp (initialState false) = (Ok NLoader, initialState false).
Proof.
  assert (H : loading (initialState false) = true \/ config (initialState false) = None)
    by (left; reflexivity).
  split; [exact H | apply (proj1 (loading_guard_only_loader (initialState false)) H)].
Defined.

End AppClaims.

(* ========================================================================= *)
(** * Further properties of the Theme Engine *)

Module ThemeMore.
Import Theme ThemeFacts.

Lemma Math_round_mono (x y : Q) : x <= y -> (Math_round x <= Math_round y)%Z.
Proof. intro H. unfold Math_round. apply Qfloor_resp_le. lra. Qed.

Lemma Math_round_inject (z : Z) : Math_round (inject_Z z) = z.
Proof.
  unfold Math_round.
  pose proof (Qfloor_le (inject_Z z + (1 # 2))) as Hle.
  pose proof (Qlt_floor (inject_Z z + (1 # 2))) as Hlt.
  rewrite inject_Z_plus in Hlt.
  set (f := Qfloor (inject_Z z + (1 # 2))) in *.
  change (inject_Z 1) with (1 # 1) in Hlt.
  assert (inject_Z z < inject_Z (f + 1) /\ inject_Z f < inject_Z (z + 1)) as [H1 H2].
  { rewrite !inject_Z_plus. change (inject_Z 1) with (1 # 1).
    generalize dependent (inject_Z f); generalize dependent (inject_Z z).
    intros; split; lra. }
  rewrite <- Zlt_Qlt in H1, H2. lia.
Qed.

Lemma Math_round_le_int (x : Q) (z : Z) : x <= inject_Z z -> (Math_round x <= z)%Z.
Proof. intro H. rewrite <- (Math_round_inject z). apply Math_round_mono, H. Qed.

Lemma int_le_Math_round (x : Q) (z : Z) : inject_Z z <= x -> (z <= Math_round x)%Z.
Proof. intro H. rewrite <- (Math_round_inject z). apply Math_round_mono, H. Qed.

(** The channel values of the eleven shades, lightest first, for a base
    channel [c]. *)
Lemma shade_channel_chain (c : Z) :
  (0 <= c <= 255)%Z ->
  nonincreasing
    [Math_round (inject_Z c * (1 - (95 # 100)) + inject_Z 255 * (95 # 100));
     Math_round (inject_Z c * (1 - (9 # 10)) + inject_Z 255 * (9 # 10));
     Math_round (inject_Z c * (1 - (75 # 100)) + inject_Z 255 * (75 # 100));
     Math_round (inject_Z c * (1 - (6 # 10)) + inject_Z 255 * (6 # 10));
     Math_round (inject_Z c * (1 - (3 # 10)) + inject_Z 255 * (3 # 10));
     Math_round (inject_Z c * (1 - (1 # 10)) + inject_Z 255 * (1 # 10));
     c;
     Math_round (inject_Z c * (1 - (1 # 10)) + inject_Z 0 * (1 # 10));
     Math_round (inject_Z c * (1 - (25 # 100)) + inject_Z 0 * (25 # 100));
     Math_round (inject_Z c * (1 - (4 # 10)) + inject_Z 0 * (4 # 10));
     Math_round (inject_Z c * (1 - (6 # 10)) + inject_Z 0 * (6 # 10))] = true.
Proof.
  intros [H0 H1]. rewrite Zle_Qle in H0, H1.
  change (inject_Z 0) with (0 # 1) in *. change (inject_Z 255) with (255 # 1) in *.
  cbn [nonincreasing]. rewrite !andb_true_iff, !Z.leb_le.
  repeat split; first [apply Math_round_mono | apply Math_round_le_int
                      | apply int_le_Math_round]; lra.
Qed.

Lemma hex_digits_of_channel (z : Z) :
  (0 <= z <= 255)%Z ->
  is_hex_digit (hex_char (z / 16)) = true /\ is_hex_digit (hex_char (z mod 16)) = true /\
  group_value (hex2 z) = z.
Proof.
  intros Hz.
  assert (Hall : forallb (fun n => let z := Z.of_nat n in
                   is_hex_digit (hex_char (z / 16)) && is_hex_digit (hex_char (z mod 16))
                   && Z.eqb (group_value (hex2 z)) z) (seq 0 256) = true)
    by (vm_compute; reflexivity).
  rewrite forallb_forall in Hall.
  specialize (Hall (Z.to_nat z)).
  rewrite Z2Nat.id in Hall by lia.
  assert (Hin : In (Z.to_nat z) (seq 0 256)) by (apply in_seq; lia).
  specialize (Hall Hin). rewrite !andb_true_iff, Z.eqb_eq in Hall. tauto.
Qed.

(** Pointwise behaviour of a sequence of [setProperty] calls. *)
Lemma fold_setProperty_unwritten (ws : list (string * string)) (st : Style) (x : string) :
  ~ In x (map fst ws) ->
  fold_left (fun st' kv => setProperty (fst kv) (snd kv) st') ws st x = st x.
Proof.
  revert st. induction ws as [|[k v] ws IH]; intros st Hx; simpl in *; [reflexivity |].
  rewrite IH by tauto. unfold setProperty.
  destruct (String.eqb_spec x k); [subst; tauto | reflexivity].
Qed.

Lemma fold_setProperty_written (ws : list (string * string)) (st1 st2 : Style) (x : string) :
  In x (map fst ws) ->
  fold_left (fun st' kv => setProperty (fst kv) (snd kv) st') ws st1 x
  = fold_left (fun st' kv => setProperty (fst kv) (snd kv) st') ws st2 x.
Proof.
  revert st1 st2. induction ws as [|[k v] ws IH]; intros st1 st2 Hx; simpl in *; [tauto |].
  destruct (in_dec String.string_dec x (map fst ws)) as [Hin | Hout].
  - apply IH, Hin.
  - rewrite !fold_setProperty_unwritten by exact Hout.
    unfold setProperty. destruct Hx as [<- | Hx]; [| contradiction].
    rewrite String.eqb_refl. reflexivity.
Qed.

Lemma fold_setProperty_last (ws : list (string * string)) (st : Style) (k v : string) :
  NoDup (map fst ws) -> In (k, v) ws ->
  fold_left (fun st' kv => setProperty (fst kv) (snd kv) st') ws st k = Some v.
Proof.
  revert st. induction ws as [|[k' v'] ws IH]; intros st Hnd Hin; simpl in *; [tauto |].
  inversion Hnd as [| ? ? Hnotin Hnd']; subst.
  destruct Hin as [E | Hin].
  - injection E as <- <-. rewrite fold_setProperty_unwritten by exact Hnotin.
    unfold setProperty. rewrite String.eqb_refl. reflexivity.
  - apply IH; assumption.
Qed.

Lemma applyTheme_keys (v : JSValue) :
  map fst (applyTheme v) =
    ["--brand-50"; "--brand-100"; "--brand-200"; "--brand-300"; "--brand-400";
     "--brand-500"; "--brand-600"; "--brand-700"; "--brand-800"; "--brand-900";
     "--brand-950"].
Proof. reflexivity. Qed.

Lemma brand_keys_NoDup :
  NoDup ["--brand-50"; "--brand-100"; "--brand-200"; "--brand-300"; "--brand-400";
         "--brand-500"; "--brand-600"; "--brand-700"; "--brand-800"; "--brand-900";
         "--brand-950"].
Proof.
  repeat (apply NoDup_cons;
          [intro H; simpl in H; intuition discriminate |]).
  apply NoDup_nil.
Qed.

End ThemeMore.

Module ThemeExtras.
Import Theme ThemeFacts ThemeMore.

(** In every palette [applyTheme] derives, from any input, each of the
    three channels never increases from shade 50 to shade 950: lighter
    shades are never darker than the base and darker shades never lighter. *)
Theorem palette_channels_nonincreasing (v : JSValue) :
  let p := palette (hexToRgb v) in
  nonincreasing (map (fun kv => r (snd kv)) p) = true /\
  nonincreasing (map (fun kv => g (snd kv)) p) = true /\
  nonincreasing (map (fun kv => b (snd kv)) p) = true.
Proof.
  destruct (hexToRgb_in_range v) as (HR & HG & HB).
  repeat split; [ exact (shade_channel_chain _ HR) | exact (shade_channel_chain _ HG)
                | exact (shade_channel_chain _ HB) ].
Qed.

(** The colours [hexToRgb] returns are exactly the RGB triples with
    channels in [0,255]: every result lies in that range, and every such
    triple is the parse of some six-digit hexadecimal string. *)
Theorem hexToRgb_image_is_byte_triples :
  (forall v, in_range (hexToRgb v)) /\
  (forall c, in_range c ->
     exists s, is_hex6 s = true /\ hexToRgb (JSString s) = c).
Proof.
  split; [exact hexToRgb_in_range |].
  intros [cr cg cb] (HR & HG & HB); simpl in *.
  destruct (hex_digits_of_channel cr HR) as (R1 & R2 & R3).
  destruct (hex_digits_of_channel cg HG) as (G1 & G2 & G3).
  destruct (hex_digits_of_channel cb HB) as (B1 & B2 & B3).
  exists (hex2 cr ++ hex2 cg ++ hex2 cb). unfold hex2 in *. simpl.
  split.
  - unfold is_hex6. simpl. rewrite R1, R2, G1, G2, B1, B2. reflexivity.
  - rewrite hexToRgb_nonempty_string by discriminate.
    destruct (hex_regex_exec_six _ _ _ _ _ _ R1 R2 G1 G2 B1 B2) as [P _].
    rewrite P. cbv beta iota. rewrite R3, G3, B3. reflexivity.
Qed.

(** A string whose length is neither 6 nor 7 never parses: [hexToRgb]
    returns the default blue for it, so three-digit shorthands such as
    ["#fff"] are not understood. *)
Theorem hexToRgb_wrong_length_default (s : string) :
  String.length s <> 6%nat -> String.length s <> 7%nat ->
  hexToRgb (JSString s) = default_rgb.
Proof.
  intros H6 H7.
  destruct s as [|c1 [|c2 [|c3 [|c4 [|c5 [|c6 [|c7 [|c8 rest]]]]]]]];
    simpl in H6, H7; try reflexivity; try contradiction;
    (rewrite hexToRgb_nonempty_string by discriminate;
     unfold hex_regex_exec; cbv beta iota zeta;
     destruct (Ascii.eqb c1 "#"%char); reflexivity).
Qed.

Lemma hexToRgb_wrong_length_default_witness :
  (String.length "#fff" <> 6%nat /\ String.length "#fff" <> 7%nat) /\
  hexToRgb (JSString "#fff") = default_rgb.
Proof.
  assert (H6 : String.length "#fff" <> 6%nat) by (simpl; lia).
  assert (H7 : String.length "#fff" <> 7%nat) by (simpl; lia).
  split; [split; assumption | exact (hexToRgb_wrong_length_default "#fff" H6 H7)].
Defined.

(** The [config] effect with a configuration whose [themeColor] is
    non-empty: afterwards each property [applyTheme] lists holds the value
    it lists, every other property of the root style is as before, and
    running the effect again changes nothing. *)
Theorem themeEffect_writes_palette (c : SiteConfig.t) (st : Style) :
  SiteConfig.themeColor c <> "" ->
  (forall k v, In (k, v) (applyTheme (JSString (SiteConfig.themeColor c))) ->
     themeEffect (Some c) st k = Some v) /\
  (forall x, ~ In x (map fst (applyTheme (JSString (SiteConfig.themeColor c)))) ->
     themeEffect (Some c) st x = st x) /\
  (forall x, themeEffect (Some c) (themeEffect (Some c) st) x = themeEffect (Some c) st x).
Proof.
  intro Hne. unfold themeEffect.
  destruct (String.eqb_spec (SiteConfig.themeColor c) ""); [contradiction |].
  unfold applyThemeTo.
  set (ws := applyTheme (JSString (SiteConfig.themeColor c))).
  split; [| split].
  - intros k v Hin. apply fold_setProperty_last; [| exact Hin].
    unfold ws; rewrite applyTheme_keys. apply brand_keys_NoDup.
  - intros x Hx. apply fold_setProperty_unwritten, Hx.
  - intro x. destruct (in_dec String.string_dec x (map fst ws)) as [Hin | Hout].
    + apply fold_setProperty_written, Hin.
    + apply fold_setProperty_unwritten, Hout.
Qed.

Lemma themeEffect_writes_palette_witness :
  SiteConfig.themeColor demoConfig <> "" /\
  (forall st : Style, themeEffect (Some demoConfig) st "--brand-950" = Some "15 40 94").
Proof.
  assert (H : SiteConfig.themeColor demoConfig <> "") by discriminate.
  split; [exact H |].
  intro st. apply (proj1 (themeEffect_writes_palette demoConfig st H)).
  vm_compute. auto 20.
Defined.

End ThemeExtras.

(* ========================================================================= *)
(** * Further properties of the App shell *)

Module AppMore.
Import AppFacts.

(** [fetchData] touches only [loading] and the four collections. *)
Lemma fetchData_keeps_ui (w : World) :
  isDarkMode (app (snd (fetchData w))) = isDarkMode (app w) /\
  view (app (snd (fetchData w))) = view (app w).
Proof.
  destruct w as [s [on cfg ps bs pgs]]. destruct on; split; reflexivity.
Qed.

Lemma mountEffect_isDarkMode (w : World) (br : Browser) :
  isDarkMode (app (fst (mountEffect w br))) =
  (match storedTheme br with Some t => String.eqb t "dark" | None => false end
   || (falsy_item (storedTheme br) && prefersDark br)) || isDarkMode (app w).
Proof.
  unfold mountEffect, detach; simpl.
  destruct (fetchData_keeps_ui w) as [Hd _].
  destruct (match storedTheme br with Some t => String.eqb t "dark" | None => false end
            || (falsy_item (storedTheme br) && prefersDark br)); simpl; [reflexivity |].
  destruct (match params_get "page" (searchParams br) with
            | Some p => String.eqb p "admin" | None => false end); exact Hd.
Qed.

End AppMore.

Module AppExtras.
Import AppFacts AppMore.

(** [toggleTheme] flips the colour scheme and keeps the [dark] class and the
    stored ['theme'] in step with it; after a reload, the mount effect reads
    the stored value back and starts in the scheme the toggle chose, whatever
    the system preference. *)
Theorem toggleTheme_persists_across_reload (s : AppState) (br : Browser) :
  let s1 := fst (toggleTheme s br) in
  let br1 := snd (toggleTheme s br) in
  isDarkMode s1 = negb (isDarkMode s) /\
  darkClass br1 = isDarkMode s1 /\
  storedTheme br1 = Some (if isDarkMode s1 then "dark" else "light") /\
  (forall flag d, isDarkMode (app (fst (mountEffect
                    {| app := initialState flag; backend := d |} br1))) = isDarkMode s1).
Proof.
  intros s1 br1.
  split; [| split; [| split]]; [| | | intros flag d; rewrite mountEffect_isDarkMode];
    unfold s1, br1, toggleTheme; destruct (isDarkMode s); reflexivity.
Qed.

(** The colour scheme chosen on mount from a fresh state: a stored ['dark']
    turns dark mode on, any other non-empty stored value keeps it off even
    when the system prefers dark, and with nothing stored the system
    preference decides; the [dark] class is added whenever dark mode is on. *)
Theorem mountEffect_color_scheme (flag : bool) (d : Backend) (br : Browser) :
  let w := {| app := initialState flag; backend := d |} in
  let s1 := app (fst (mountEffect w br)) in
  (storedTheme br = Some "dark" -> isDarkMode s1 = true) /\
  (forall t, storedTheme br = Some t -> t <> "" -> t <> "dark" -> isDarkMode s1 = false) /\
  (storedTheme br = None -> isDarkMode s1 = prefersDark br) /\
  (isDarkMode s1 = true -> darkClass (snd (mountEffect w br)) = true).
Proof.
  intros w s1. unfold s1. rewrite !mountEffect_isDarkMode. simpl.
  split; [| split; [| split]].
  - intros ->. reflexivity.
  - intros t -> H1 H2. apply String.eqb_neq in H1, H2. simpl. rewrite H1, H2. reflexivity.
  - intros ->. simpl. destruct (prefersDark br); reflexivity.
  - rewrite orb_false_r. intro H. unfold mountEffect. rewrite H. reflexivity.
Qed.

(** Opening the site with a reachable backend that holds a configuration:
    once the mount effect's load is done, the first page rendered is the
    bare admin login form when the first [page] query parameter is
    ["admin"], and the home page inside the site layout otherwise. *)
Theorem mountEffect_first_page (flag : bool) (d : Backend) (br : Browser) (c : SiteConfig.t) :
  db_online d = true -> db_config d = Some c ->
  let s1 := app (fst (mountEffect {| app := initialState flag; backend := d |} br)) in
  (params_get "page" (searchParams br) = Some "admin" ->
     fst (renderApp s1) = Ok (NFragment [NSeoHead "Admin Login" "Restricted Area" c;
                                         NAdminLogin "" false None])) /\
  (params_get "page" (searchParams br) <> Some "admin" ->
     fst (renderApp s1) = Ok (NLayout HOME c (db_pages d) (isDarkMode s1)
                                (NFragment [NSeoHead "Home" (SiteConfig.shopName c) c;
                                            NHome (db_products d) (db_blogs d) c]))).
Proof.
  intros On Hc s1. unfold s1, mountEffect, detach. simpl.
  rewrite (fetchData_online _ _ On). simpl.
  split.
  - intros ->. simpl.
    destruct (match storedTheme br with Some t => String.eqb t "dark" | None => false end
              || (falsy_item (storedTheme br) && prefersDark br));
      unfold renderApp; simpl; rewrite Hc; reflexivity.
  - intro Hp.
    assert (Hf : match params_get "page" (searchParams br) with
                 | Some p => String.eqb p "admin" | None => false end = false).
    { destruct (params_get "page" (searchParams br)) as [p|]; [| reflexivity].
      apply String.eqb_neq. congruence. }
    rewrite Hf.
    destruct (match storedTheme br with Some t => String.eqb t "dark" | None => false end
              || (falsy_item (storedTheme br) && prefersDark br));
      unfold renderApp; simpl; rewrite Hc; reflexivity.
Qed.

Lemma mountEffect_first_page_witness :
  db_online demoBackend = true /\ db_config demoBackend = Some demoConfig /\
  let br := {| searchParams := [("page", "admin")]; storedTheme := None;
               prefersDark := false; darkClass := false |} in
  fst (renderApp (app (fst (mountEffect {| app := initialState false;
                                           backend := demoBackend |} br))))
  = Ok (NFragment [NSeoHead "Admin Login" "Restricted Area" demoConfig;
                   NAdminLogin "" false None]).
Proof.
  assert (On : db_online demoBackend = true) by reflexivity.
  assert (Hc : db_config demoBackend = Some demoConfig) by reflexivity.
  split; [exact On | split; [exact Hc |]]. intro br.
  apply (proj1 (mountEffect_first_page false demoBackend br demoConfig On Hc)).
  reflexivity.
Defined.

(** Logging in and rendering compose: when the submitted password is the
    secret, the next render of [App] (data loaded) shows the admin
    dashboard with the loaded collections, bare, without a redirect. *)
Theorem login_then_dashboard_renders (secret : string) (s : AppState) (c : SiteConfig.t) :
  loading s = false -> config s = Some c -> loginPassword s = secret ->
  renderApp (handleLoginSubmit secret s) =
    (Ok (NFragment [NSeoHead "Dashboard" "Admin Control Panel" c;
                    NAdminDashboard (products s) (blogs s) (pages s) c]),
     handleLoginSubmit secret s).
Proof.
  intros Hl Hc Hp. unfold handleLoginSubmit, login. rewrite Hp, String.eqb_refl.
  unfold renderApp. simpl. rewrite Hl, Hc. reflexivity.
Qed.

Lemma login_then_dashboard_renders_witness :
  let s := with_loginPassword "rahasia" (with_config (Some demoConfig)
             (with_loading false (with_view ADMIN_LOGIN (initialState false)))) in
  (loading s = false /\ config s = Some demoConfig /\ loginPassword s = "rahasia") /\
  fst (renderApp (handleLoginSubmit "rahasia" s)) =
    Ok (NFragment [NSeoHead "Dashboard" "Admin Control Panel" demoConfig;
                   NAdminDashboard [] [] [] demoConfig]).
Proof.
  intro s. split; [repeat split |].
  rewrite (login_then_dashboard_renders "rahasia" s demoConfig); reflexivity.
Defined.

(** After the dashboard's [onLogout], the view is the home page, and going
    back to the dashboard view renders nothing and redirects to the login
    view. *)
Theorem logout_locks_dashboard (s : AppState) (c : SiteConfig.t) :
  loading s = false -> config s = Some c ->
  view (onLogout s) = HOME /\
  renderApp (with_view ADMIN_DASHBOARD (onLogout s)) =
    (Ok NNull, with_view ADMIN_LOGIN (with_view ADMIN_DASHBOARD (onLogout s))).
Proof.
  intros Hl Hc. split; [reflexivity |].
  unfold renderApp. simpl. rewrite Hl, Hc. reflexivity.
Qed.

Lemma logout_locks_dashboard_witness :
  let s := with_config (Some demoConfig) (with_loading false (initialState true)) in
  (loading s = false /\ config s = Some demoConfig) /\ view (onLogout s) = HOME.
Proof.
  intro s. split; [split; reflexivity |].
  apply (proj1 (logout_locks_dashboard s demoConfig eq_refl eq_refl)).
Defined.

(** Selecting a product, a blog post or a page (data loaded) leads to a
    render of the matching detail view inside the site layout, showing the
    selected item. *)
Theorem select_then_detail_renders (s : AppState) (c : SiteConfig.t)
    (p : Product.t) (bp : BlogPost.t) (pg : PageContent.t) :
  loading s = false -> config s = Some c ->
  renderApp (selectProduct p s) =
    (Ok (NLayout PRODUCT_DETAIL c (pages s) (isDarkMode s)
           (NFragment [NSeoHead (Product.name p) (Product.description p) c;
                       NProductDetail p c])), selectProduct p s) /\
  renderApp (selectBlog bp s) =
    (Ok (NLayout BLOG_DETAIL c (pages s) (isDarkMode s)
           (NFragment [NSeoHead (BlogPost.title bp) (BlogPost.excerpt bp) c;
                       NBlogDetail bp])), selectBlog bp s) /\
  renderApp (onPageClick pg s) =
    (Ok (NLayout DYNAMIC_PAGE c (pages s) (isDarkMode s)
           (NFragment [NSeoHead (PageContent.title pg) (PageContent.title pg) c;
                       NDynamicPage pg])), onPageClick pg s).
Proof.
  intros Hl Hc. unfold renderApp. simpl. rewrite Hl, Hc.
  repeat split.
Qed.

Lemma select_then_detail_renders_witness :
  let s := with_config (Some demoConfig) (with_loading false (initialState false)) in
  (loading s = false /\ config s = Some demoConfig) /\
  fst (renderApp (selectProduct demoProduct s)) =
    Ok (NLayout PRODUCT_DETAIL demoConfig [] false
          (NFragment [NSeoHead "Head Unit" "Double din" demoConfig;
                      NProductDetail demoProduct demoConfig])).
Proof.
  intro s. split; [split; reflexivity |].
  rewrite (proj1 (select_then_detail_renders s demoConfig demoProduct
                    {| BlogPost.id := ""; BlogPost.title := ""; BlogPost.excerpt := "";
                       BlogPost.content := ""; BlogPost.author := "";
                       BlogPost.date := ""; BlogPost.image := "" |}
                    {| PageContent.id := ""; PageContent.slug := "";
                       PageContent.title := ""; PageContent.content := "" |}
                    eq_refl eq_refl)).
  reflexivity.
Defined.

(** When an admin callback's write call rejects, the callback rejects with
    the same error and ends where the write left off: the reload after the
    write is never started. *)
Theorem admin_write_failure_no_reload (a : AdminAction) (w w' : World) (e : JSError) :
  adminWrite a w = (Throw e, w') ->
  adminHandler a w = (Throw e, w').
Proof.
  intro H.
  destruct a; simpl in H |- *;
    [ unfold onSaveProduct | unfold onDeleteProduct | unfold onSaveBlog
    | unfold onDeleteBlog | unfold onSavePage | unfold onDeletePage
    | unfold onSaveConfig ]; unfold abind; rewrite H; reflexivity.
Qed.

Lemma admin_write_failure_no_reload_witness :
  let w := {| app := initialState true;
              backend := {| db_online := false; db_config := None; db_products := [];
                            db_blogs := []; db_pages := [] |} |} in
  adminWrite (SaveProduct demoProduct) w = (Throw NetworkError, w) /\
  adminHandler (SaveProduct demoProduct) w = (Throw NetworkError, w).
Proof.
  intro w. assert (H : adminWrite (SaveProduct demoProduct) w = (Throw NetworkError, w))
    by reflexivity.
  split; [exact H | exact (admin_write_failure_no_reload _ _ _ _ H)].
Defined.

(** A [fetchData] whose reads fail rejects after having set [loading]; the
    collections keep their old values and [App] renders only the loading
    indicator from then on, as nothing resets [loading]. *)
Theorem fetchData_failure_stuck_loading (s : AppState) (d : Backend) :
  db_online d = false ->
  fetchData {| app := s; backend := d |} =
    (Throw NetworkError, {| app := with_loading true s; backend := d |}) /\
  renderApp (with_loading true s) = (Ok NLoader, with_loading true s).
Proof.
  intro Off. destruct d as [on cfg ps bs pgs]; simpl in Off; subst on.
  split; reflexivity.
Qed.

Lemma fetchData_failure_stuck_loading_witness :
  let d := {| db_online := false; db_config := None; db_products := [];
              db_blogs := []; db_pages := [] |} in
  db_online d = false /\
  renderApp (with_loading true (initialState false)) =
    (Ok NLoader, with_loading true (initialState false)).
Proof.
  intro d. assert (H : db_online d = false) by reflexivity.
  split; [exact H | exact (proj2 (fetchData_failure_stuck_loading (initialState false) d H))].
Defined.

End AppExtras.
